(** * Request lifecycle middleware and OpenAPI schema augmentation

    A shallow embedding of [main.py]: the logging middleware
    [log_requests], the schema getter [custom_openapi], the [root]
    endpoint and the 404 handler [not_found_handler], together with the
    small part of the Python runtime they rely on (dictionaries, string
    formatting of integers, floats and datetimes, JSON rendering,
    response headers). *)

From Stdlib Require Import ZArith NArith List String Ascii Bool Lia.
From Stdlib Require Import DecimalString SpecFloat.
Import ListNotations.

Local Open Scope string_scope.

(** ** Characters and decimal digits *)

Definition dquote : ascii := ascii_of_N 34.
Definition backslash : ascii := ascii_of_N 92.

Definition chr (c : ascii) : string := String c EmptyString.

Definition digit (d : N) : ascii := ascii_of_N (48 + d).

Definition is_digit (c : ascii) : bool :=
  ((48 <=? N_of_ascii c) && (N_of_ascii c <=? 57))%N.

(** [str(n)] for a Python [int]. *)
Definition str_int (z : Z) : string := NilZero.string_of_int (Z.to_int z).

Definition str_N (n : N) : string := NilEmpty.string_of_uint (N.to_uint n).

(** ["%0wd" % n] for a non-negative [n]: the decimal digits of [n],
    padded with zeros on the left up to width [w]; a number with more than
    [w] digits is printed in full. *)
Fixpoint fmt_0wd (w : nat) (n : N) : string :=
  match w with
  | O => if (n =? 0)%N then EmptyString else str_N n
  | S w' => fmt_0wd w' (n / 10) ++ chr (digit (n mod 10))
  end.

(** [take_digits k s] reads exactly [k] decimal digits at the head of [s]
    and returns what follows them. *)
Fixpoint take_digits (k : nat) (s : string) : option string :=
  match k with
  | O => Some s
  | S k' =>
      match s with
      | String c s' => if is_digit c then take_digits k' s' else None
      | EmptyString => None
      end
  end.

Definition expect (c : ascii) (s : string) : option string :=
  match s with
  | String c' s' => if Ascii.eqb c c' then Some s' else None
  | EmptyString => None
  end.

(** ASCII lower-casing, [str.lower] on header names. *)
Definition lower_ascii (c : ascii) : ascii :=
  let n := N_of_ascii c in
  if ((65 <=? n) && (n <=? 90))%N then ascii_of_N (n + 32) else c.

Fixpoint lower (s : string) : string :=
  match s with
  | EmptyString => EmptyString
  | String c s' => String (lower_ascii c) (lower s')
  end.

(** ** Python values and dictionaries

    A [dict] keeps its keys in insertion order: assigning to a key that is
    present replaces the value where it stands, assigning to a new key
    appends it. *)

#[local] Set Warnings "-register-all".

Inductive pyval : Type :=
| VNone
| VBool (b : bool)
| VInt (z : Z)
| VStr (s : string)
| VList (l : list pyval)
| VDict (d : list (string * pyval)).

Definition dict : Type := list (string * pyval).

Fixpoint dict_get (k : string) (d : dict) : option pyval :=
  match d with
  | [] => None
  | (k', v) :: d' => if String.eqb k k' then Some v else dict_get k d'
  end.

(** [k in d] *)
Definition dict_contains (k : string) (d : dict) : bool :=
  match dict_get k d with Some _ => true | None => false end.

(** [d[k] = v] *)
Fixpoint dict_set (k : string) (v : pyval) (d : dict) : dict :=
  match d with
  | [] => [(k, v)]
  | (k', v') :: d' =>
      if String.eqb k k' then (k', v) :: d' else (k', v') :: dict_set k v d'
  end.

Definition dict_keys (d : dict) : list string := map fst d.

(** Truth value of [app.openapi_schema], which holds [None] or a dict. *)
Definition truthy (o : option dict) : bool :=
  match o with
  | None => false
  | Some [] => false
  | Some (_ :: _) => true
  end.

(** ** JSON rendering

    [json.dumps(content, ensure_ascii=False, separators=(",", ":"))], the
    rendering a JSON response applies to its content.  Strings are byte
    strings in UTF-8, so only the quote, the backslash and the control
    characters are escaped. *)

Definition hex_digit (n : N) : ascii :=
  if (n <? 10)%N then ascii_of_N (48 + n) else ascii_of_N (87 + n).

Definition json_escape_char (c : ascii) : string :=
  let n := N_of_ascii c in
  if (n =? 34)%N then String backslash (chr dquote)
  else if (n =? 92)%N then String backslash (chr backslash)
  else if (n =? 10)%N then String backslash "n"
  else if (n =? 13)%N then String backslash "r"
  else if (n =? 9)%N then String backslash "t"
  else if (n =? 12)%N then String backslash "f"
  else if (n =? 8)%N then String backslash "b"
  else if (n <? 32)%N then
    String backslash ("u00" ++ String (hex_digit (n / 16)) (chr (hex_digit (n mod 16))))
  else chr c.

Fixpoint json_escape (s : string) : string :=
  match s with
  | EmptyString => EmptyString
  | String c s' => json_escape_char c ++ json_escape s'
  end.

Definition json_string (s : string) : string :=
  String dquote (json_escape s ++ chr dquote).

Fixpoint json_dumps (v : pyval) : string :=
  match v with
  | VNone => "null"
  | VBool true => "true"
  | VBool false => "false"
  | VInt z => str_int z
  | VStr s => json_string s
  | VList l =>
      "[" ++
      (fix items (l : list pyval) : string :=
         match l with
         | [] => EmptyString
         | x :: rest =>
             match rest with
             | [] => json_dumps x
             | _ :: _ => json_dumps x ++ "," ++ items rest
             end
         end) l ++ "]"
  | VDict d =>
      "{" ++
      (fix members (d : list (string * pyval)) : string :=
         match d with
         | [] => EmptyString
         | (k, x) :: rest =>
             match rest with
             | [] => json_string k ++ ":" ++ json_dumps x
             | _ :: _ => json_string k ++ ":" ++ json_dumps x ++ "," ++ members rest
             end
         end) d ++ "}"
  end.

(** ** Floats

    A Python [float] is an IEEE 754 binary64 number; [time.time()] returns
    one and the middleware subtracts two of them. *)

Definition float : Type := spec_float.

Definition float_sub (x y : float) : float := SFsub 53 1024 x y.

Definition is_finite (x : float) : bool :=
  match x with
  | S754_zero _ | S754_finite _ _ _ => true
  | S754_infinity _ | S754_nan => false
  end.

(** The number of thousandths nearest to [m * 2^e], ties going to the
    even one: the correctly rounded conversion that [format] performs. *)
Definition thousandths (m : positive) (e : Z) : N :=
  if (0 <=? e)%Z then (Npos m * 2 ^ Z.to_N e * 1000)%N
  else
    let n := (Npos m * 1000)%N in
    let d := (2 ^ Z.to_N (- e))%N in
    let q := (n / d)%N in
    let r := (n mod d)%N in
    if (2 * r <? d)%N then q
    else if (d <? 2 * r)%N then (q + 1)%N
    else if N.even q then q else (q + 1)%N.

Definition sign_prefix (s : bool) : string :=
  if s then "-" else EmptyString.

(** [format(x, ".3f")], the [{duration:.3f}] of the log lines. *)
Definition format_3f (x : float) : string :=
  match x with
  | S754_nan => "nan"
  | S754_infinity s => sign_prefix s ++ "inf"
  | S754_zero s => sign_prefix s ++ "0.000"
  | S754_finite s m e =>
      let q := thousandths m e in
      sign_prefix s ++ str_N (q / 1000) ++ "." ++ fmt_0wd 3 (q mod 1000)
  end.

(** A string shows three decimal places when it ends in a point followed
    by exactly three digits. *)
Definition three_decimals (s : string) : Prop :=
  exists whole frac,
    s = whole ++ "." ++ frac /\ take_digits 3 frac = Some EmptyString.

(** ** Datetimes

    [datetime.utcnow()] returns a naive datetime holding the UTC wall
    clock; [isoformat()] prints it as [YYYY-MM-DDTHH:MM:SS], followed by
    [.ffffff] when the microseconds are not zero. *)

Record datetime : Type := mkDatetime {
  year : N; month : N; day : N;
  hour : N; minute : N; second : N; microsecond : N
}.

Definition valid_datetime (t : datetime) : Prop :=
  (1 <= year t <= 9999 /\ 1 <= month t <= 12 /\ 1 <= day t <= 31 /\
   hour t < 24 /\ minute t < 60 /\ second t < 60 /\
   microsecond t < 1000000)%N.

Definition isoformat (t : datetime) : string :=
  fmt_0wd 4 (year t) ++ "-" ++ fmt_0wd 2 (month t) ++ "-" ++ fmt_0wd 2 (day t)
  ++ "T" ++ fmt_0wd 2 (hour t) ++ ":" ++ fmt_0wd 2 (minute t) ++ ":"
  ++ fmt_0wd 2 (second t)
  ++ (if (microsecond t =? 0)%N then EmptyString
      else "." ++ fmt_0wd 6 (microsecond t)).

Definition bind_opt {A B : Type} (o : option A) (f : A -> option B) : option B :=
  match o with Some a => f a | None => None end.

(** The ISO 8601 extended date and time layout: four, two and two digits
    separated by hyphens, a [T], two, two and two digits separated by
    colons, and an optional fraction of six digits. *)
Definition is_iso8601 (s : string) : bool :=
  match
    bind_opt (take_digits 4 s) (fun s =>
    bind_opt (expect "-" s) (fun s =>
    bind_opt (take_digits 2 s) (fun s =>
    bind_opt (expect "-" s) (fun s =>
    bind_opt (take_digits 2 s) (fun s =>
    bind_opt (expect "T" s) (fun s =>
    bind_opt (take_digits 2 s) (fun s =>
    bind_opt (expect ":" s) (fun s =>
    bind_opt (take_digits 2 s) (fun s =>
    bind_opt (expect ":" s) (fun s =>
    take_digits 2 s))))))))))
  with
  | Some EmptyString => true
  | Some rest =>
      match bind_opt (expect "." rest) (take_digits 6) with
      | Some EmptyString => true
      | _ => false
      end
  | None => false
  end.

(** ** Exceptions, the world and the effect monad

    The code reads clocks, writes to a process-wide logger and raises and
    catches exceptions.  A computation takes the world it starts in and
    gives back its result, a value or a raised exception, with the world
    it leaves behind. *)

(** An exception of class [Exception], the class the middleware catches;
    [str(e)] is its message.  What Python raises outside that class
    (cancellation, interpreter exit) is not a failure of a handler and is
    not part of this model. *)
Inductive exn : Type :=
| Exception (message : string).

Definition str_exn (e : exn) : string :=
  match e with Exception m => m end.

Inductive level : Type := INFO | ERROR.

Record LogRecord : Type := mkLog { levelname : level; msg : string }.

(** The world: the lines the log sink holds, oldest first, and how many
    times a clock has been read. *)
Record World : Type := mkWorld {
  sink : list LogRecord;
  clock_reads : nat
}.

(** What the surroundings supply during one request: the identifier
    [uuid.uuid4()] draws, the successive clock readings, and the log sink's
    verdict on each record ([None]: the record is written; [Some e]: the
    log call raises [e] and writes nothing). *)
Record Env : Type := mkEnv {
  uuid4 : string;
  wall_clock : nat -> float;
  utc_clock : nat -> datetime;
  sink_fault : LogRecord -> option exn
}.

Inductive result (A : Type) : Type :=
| Return (a : A)
| Raise (e : exn).

Arguments Return {A} a.
Arguments Raise {A} e.

Definition M (A : Type) : Type := World -> result A * World.

Definition ret {A : Type} (a : A) : M A := fun w => (Return a, w).

Definition raise {A : Type} (e : exn) : M A := fun w => (Raise e, w).

Definition bind {A B : Type} (c : M A) (k : A -> M B) : M B :=
  fun w =>
    match c w with
    | (Return a, w') => k a w'
    | (Raise e, w') => (Raise e, w')
    end.

(** [try: body  except Exception as e: handler e] *)
Definition try_except {A : Type} (body : M A) (handler : exn -> M A) : M A :=
  fun w =>
    match body w with
    | (Return a, w') => (Return a, w')
    | (Raise e, w') => handler e w'
    end.

Declare Scope py_scope.
Delimit Scope py_scope with py.

Notation "x <- c ;; k" := (bind c (fun x => k))
  (at level 100, c at next level, right associativity) : py_scope.
Notation "c ;;; k" := (bind c (fun _ => k))
  (at level 100, right associativity) : py_scope.

Local Open Scope py_scope.

Definition tick (w : World) : World :=
  {| sink := sink w; clock_reads := S (clock_reads w) |}.

Definition emit (r : LogRecord) (w : World) : World :=
  {| sink := (sink w ++ [r])%list; clock_reads := clock_reads w |}.

(** [time.time()] *)
Definition time_time (env : Env) : M float :=
  fun w => (Return (wall_clock env (clock_reads w)), tick w).

(** [datetime.utcnow()] *)
Definition datetime_utcnow (env : Env) : M datetime :=
  fun w => (Return (utc_clock env (clock_reads w)), tick w).

Definition logger_log (env : Env) (lvl : level) (m : string) : M unit :=
  fun w =>
    let r := mkLog lvl m in
    match sink_fault env r with
    | None => (Return tt, emit r w)
    | Some e => (Raise e, w)
    end.

(** [logger.info(m)] and [logger.error(m)] *)
Definition logger_info (env : Env) (m : string) : M unit := logger_log env INFO m.
Definition logger_error (env : Env) (m : string) : M unit := logger_log env ERROR m.

(** ** Requests and responses *)

Record Request : Type := mkRequest {
  method : string;
  url_path : string;
  state_request_id : option string
}.

(** [request.state.request_id = request_id] *)
Definition set_state_request_id (request : Request) (request_id : string) : Request :=
  {| method := method request;
     url_path := url_path request;
     state_request_id := Some request_id |}.

(** Header lists hold lower-case names, in the order they were added. *)
Definition Headers : Type := list (string * string).

Record Response : Type := mkResponse {
  status_code : Z;
  headers : Headers;
  body : string
}.

(** [headers.get(name)] *)
Fixpoint raw_get (k : string) (hs : Headers) : option string :=
  match hs with
  | [] => None
  | (k', v) :: hs' => if String.eqb k k' then Some v else raw_get k hs'
  end.

Definition get_header (name : string) (hs : Headers) : option string :=
  raw_get (lower name) hs.

Definition raw_remove (k : string) (hs : Headers) : Headers :=
  filter (fun kv => negb (String.eqb k (fst kv))) hs.

(** [headers[name] = value]: the first header of that name takes the
    value and any further ones are dropped; a new name is appended. *)
Fixpoint raw_set (k v : string) (hs : Headers) : Headers :=
  match hs with
  | [] => [(k, v)]
  | (k', v') :: hs' =>
      if String.eqb k k' then (k, v) :: raw_remove k hs'
      else (k', v') :: raw_set k v hs'
  end.

Definition set_header (name value : string) (response : Response) : Response :=
  {| status_code := status_code response;
     headers := raw_set (lower name) value (headers response);
     body := body response |}.

(** [JSONResponse(status_code=..., content=...)]: the body is the JSON
    text of the content, and the response starts with the length and the
    media type of that body as its only headers. *)
Definition JSONResponse (status : Z) (content : pyval) : Response :=
  let text := json_dumps content in
  {| status_code := status;
     headers :=
       ((if ((status <? 200) || (status =? 204) || (status =? 304))%Z then []
         else [("content-length", str_N (N.of_nat (String.length text)))])
        ++ [("content-type", "application/json")])%list;
     body := text |}.

(** A downstream handler chain, the [call_next] of a middleware. *)
Definition Handler : Type := Request -> M Response.

(** ** The logging middleware, [log_requests] *)

Definition info_message (request : Request) (response : Response)
    (duration : float) (request_id : string) : string :=
  method request ++ " " ++ url_path request ++ " - "
  ++ "Status: " ++ str_int (status_code response) ++ " - "
  ++ "Duration: " ++ format_3f duration ++ "s - "
  ++ "Request ID: " ++ request_id.

Definition error_message (e : exn) (request : Request)
    (duration : float) (request_id : string) : string :=
  "Unhandled exception: " ++ str_exn e ++ " - "
  ++ method request ++ " " ++ url_path request ++ " - "
  ++ "Duration: " ++ format_3f duration ++ "s - "
  ++ "Request ID: " ++ request_id.

Definition error_content (request_id : string) (now : datetime) : pyval :=
  VDict [("detail", VStr "Internal server error");
         ("request_id", VStr request_id);
         ("timestamp", VStr (isoformat now))].

Definition log_requests (env : Env) (request : Request) (call_next : Handler)
  : M Response :=
  let request_id := uuid4 env in
  start_time <- time_time env ;;
  let request := set_state_request_id request request_id in
  try_except
    (response <- call_next request ;;
     let response := set_header "X-Request-ID" request_id response in
     now <- time_time env ;;
     let duration := float_sub now start_time in
     logger_info env (info_message request response duration request_id) ;;;
     ret response)
    (fun e =>
     now <- time_time env ;;
     let duration := float_sub now start_time in
     logger_error env (error_message e request duration request_id) ;;;
     utc <- datetime_utcnow env ;;
     ret (JSONResponse 500 (error_content request_id utc))).

(** ** The endpoints of [main.py] *)

Record Settings : Type := mkSettings {
  API_TITLE : string;
  API_VERSION : string
}.

(** [root()] *)
Definition root (env : Env) (settings : Settings) : M pyval :=
  utc <- datetime_utcnow env ;;
  ret (VDict [("name", VStr (API_TITLE settings));
              ("version", VStr (API_VERSION settings));
              ("status", VStr "operational");
              ("docs", VStr "/docs");
              ("health", VStr "/api/v1/health");
              ("timestamp", VStr (isoformat utc))]).

(** [@app.get("/")]: the value the endpoint returns becomes the content of
    a JSON response with status 200. *)
Definition get_route (endpoint : M pyval) : Handler :=
  fun _ => content <- endpoint ;; ret (JSONResponse 200 content).

Definition not_found_content (request : Request) (now : datetime) : pyval :=
  VDict [("detail", VStr "Endpoint not found");
         ("path", VStr (url_path request));
         ("timestamp", VStr (isoformat now))].

(** [not_found_handler(request, exc)], registered for status 404. *)
Definition not_found_handler (env : Env) (request : Request) (exc : exn)
  : M Response :=
  utc <- datetime_utcnow env ;;
  ret (JSONResponse 404 (not_found_content request utc)).

(** ** The schema getter, [custom_openapi] *)

Definition bearerAuth_scheme : pyval :=
  VDict [("type", VStr "http");
         ("scheme", VStr "bearer");
         ("bearerFormat", VStr "JWT");
         ("description",
          VStr "API Key as Bearer token. Create one at POST /api/v1/keys/ (first key doesn't require auth)")].

(** The statements of [custom_openapi] between the call of [get_openapi]
    and the assignment to the cache.  The nested dictionaries are updated
    in place in the source, which on values is an update along the path
    [components], [securitySchemes], [bearerAuth].  [None] stands for the
    [TypeError] Python raises when [components] or [securitySchemes] is
    present and is not a dictionary. *)
Definition augment_schema (openapi_schema : dict) : option dict :=
  let openapi_schema :=
    if negb (dict_contains "components" openapi_schema)
    then dict_set "components" (VDict []) openapi_schema
    else openapi_schema in
  match dict_get "components" openapi_schema with
  | Some (VDict components) =>
      let components :=
        if negb (dict_contains "securitySchemes" components)
        then dict_set "securitySchemes" (VDict []) components
        else components in
      match dict_get "securitySchemes" components with
      | Some (VDict schemes) =>
          let schemes := dict_set "bearerAuth" bearerAuth_scheme schemes in
          let components := dict_set "securitySchemes" (VDict schemes) components in
          Some (dict_set "components" (VDict components) openapi_schema)
      | _ => None
      end
  | _ => None
  end.

Definition api_description : string :=
  "Event-Driven Analytics & Audit API with async ingestion, rate limiting, and real-time metrics".

Section SchemaGetter.

(** The framework's route table and its schema generator are not part of
    this program. *)
Variable Routes : Type.
Variable get_openapi : string -> string -> string -> Routes -> dict.
Variable settings : Settings.

(** The application object: the cache [app.openapi_schema] ([None]
    until a schema is stored), the registered routes, and a count of the
    calls made to [get_openapi]. *)
Record App : Type := mkApp {
  openapi_schema : option dict;
  routes : Routes;
  introspections : nat
}.

(** [custom_openapi()]: the result, [None] when a [TypeError] was
    raised, and the application afterwards. *)
Definition custom_openapi (app : App) : option dict * App :=
  if truthy (openapi_schema app) then (openapi_schema app, app)
  else
    let base :=
      get_openapi (API_TITLE settings) (API_VERSION settings)
                  api_description (routes app) in
    let app := {| openapi_schema := openapi_schema app;
                  routes := routes app;
                  introspections := S (introspections app) |} in
    match augment_schema base with
    | Some schema =>
        let app := {| openapi_schema := Some schema;
                      routes := routes app;
                      introspections := introspections app |} in
        (openapi_schema app, app)
    | None => (None, app)
    end.

End SchemaGetter.

Arguments openapi_schema {Routes} _.
Arguments routes {Routes} _.
Arguments introspections {Routes} _.
Arguments mkApp {Routes} _ _ _.
Arguments custom_openapi {Routes} _ _ _.

(** The schema a well-typed [get_openapi] returns: [components], when
    present, is a dictionary, and so is [securitySchemes] inside it. *)
Definition schema_shape (schema : dict) : Prop :=
  forall v, dict_get "components" schema = Some v ->
    exists components, v = VDict components /\
      forall v', dict_get "securitySchemes" components = Some v' ->
        exists schemes, v' = VDict schemes.

(** The log sink takes every record. *)
Definition sink_accepts (env : Env) : Prop :=
  forall r, sink_fault env r = None.

(** The containers the bearer scheme goes into: those of the schema, or
    empty ones where the schema has none. *)
Definition components_of (schema : dict) : dict :=
  match dict_get "components" schema with
  | Some (VDict components) => components
  | _ => []
  end.

Definition schemes_of (components : dict) : dict :=
  match dict_get "securitySchemes" components with
  | Some (VDict schemes) => schemes
  | _ => []
  end.

(** ** A concrete request

    A clock that advances by 125/1024 s per reading, a sink that takes
    every record, one that refuses INFO records and one that refuses all;
    a handler that answers and one that raises. *)

Module Sample.

Definition seconds (m : Z) : float := binary_normalize 53 1024 m (-10) false.

Definition clock (n : nat) : float := seconds (1700000000000 + 125 * Z.of_nat n).

Definition calendar (n : nat) : datetime :=
  mkDatetime 2024 3 9 7 5 (N.of_nat n) 1200.

Definition rid : string := "3f2b8c1e-0d4a-4e6f-9a7b-5c1d2e3f4a5b".

Definition env : Env := mkEnv rid clock calendar (fun _ => None).

Definition unavailable : exn := Exception "log sink unavailable".

Definition env_info_down : Env :=
  mkEnv rid clock calendar
        (fun r => match levelname r with INFO => Some unavailable | ERROR => None end).

Definition env_down : Env := mkEnv rid clock calendar (fun _ => Some unavailable).

Definition w0 : World := mkWorld [] 0.

Definition request : Request := mkRequest "GET" "/no-such-route" None.

Definition created : Response :=
  mkResponse 201 [("content-type", "text/plain"); ("x-trace", "t1")] "made".

Definition answers : Handler := fun _ => ret created.

Definition boom : Handler := fun _ => raise (Exception "boom").

Definition settings : Settings := mkSettings "Analytics API" "1.0.0".

(** A schema without [components], and one that already describes a
    [bearerAuth] scheme next to another one. *)
Definition bare_schema : dict :=
  [("openapi", VStr "3.1.0");
   ("info", VDict [("title", VStr "Analytics API"); ("version", VStr "1.0.0")]);
   ("paths", VDict [])].

Definition basic_scheme : pyval :=
  VDict [("type", VStr "http"); ("scheme", VStr "basic"); ("x-note", VStr "legacy")].

Definition keyed_schemes : dict :=
  [("bearerAuth", basic_scheme);
   ("apiKey", VDict [("type", VStr "apiKey"); ("in", VStr "header")])].

Definition keyed_components : dict :=
  [("schemas", VDict [("Event", VDict [("type", VStr "object")])]);
   ("securitySchemes", VDict keyed_schemes)].

Definition keyed_schema : dict :=
  [("openapi", VStr "3.1.0");
   ("components", VDict keyed_components);
   ("paths", VDict [])].

(** A schema generator over an empty route table. *)
Definition introspect (title version description : string) (routes : unit) : dict :=
  bare_schema.

End Sample.

(** ** Application start and stop, [lifespan]

    [lifespan(app)] is a context manager written as a generator: the
    statements before its [yield] run when the guarded block is entered,
    those after it when the block ends normally.  An exception raised in
    the block is thrown in at the [yield] and, nothing catching it there,
    leaves the generator at once.  [init_db] comes from [app.db.database],
    outside this program, and [serving] is the guarded block. *)
Definition lifespan {A : Type} (env : Env) (init_db : M unit) (serving : M A)
  : M A :=
  logger_info env "Starting application..." ;;;
  init_db ;;;
  logger_info env "Database initialized" ;;;
  served <- serving ;;
  logger_info env "Shutting down application..." ;;;
  ret served.

(** ** Reading a JSON string back

    The inverse of the escaping above, used to state what a client reads
    in a body: a backslash introduces a two-character escape or [u] and
    four hexadecimal digits (here of a code below 256); a bare quote or
    control character is not allowed inside a string. *)

Definition hex_value (c : ascii) : option N :=
  let n := N_of_ascii c in
  if ((48 <=? n) && (n <=? 57))%N then Some (n - 48)%N
  else if ((97 <=? n) && (n <=? 102))%N then Some (n - 87)%N
  else if ((65 <=? n) && (n <=? 70))%N then Some (n - 55)%N
  else None.

Definition unescape_u (a b c d : ascii) : option ascii :=
  match hex_value a, hex_value b, hex_value c, hex_value d with
  | Some 0%N, Some 0%N, Some h, Some l => Some (ascii_of_N (16 * h + l))
  | _, _, _, _ => None
  end.

Definition cons_opt (c : option ascii) (s : option string) : option string :=
  match c, s with
  | Some c, Some s => Some (String c s)
  | _, _ => None
  end.

Fixpoint json_unescape (s : string) : option string :=
  match s with
  | EmptyString => Some EmptyString
  | String c rest =>
      let n := N_of_ascii c in
      if (n =? 92)%N then
        match rest with
        | EmptyString => None
        | String x rest' =>
            let k := N_of_ascii x in
            if (k =? 34)%N then cons_opt (Some dquote) (json_unescape rest')
            else if (k =? 92)%N then cons_opt (Some backslash) (json_unescape rest')
            else if (k =? 47)%N then cons_opt (Some x) (json_unescape rest')
            else if (k =? 110)%N then cons_opt (Some (ascii_of_N 10)) (json_unescape rest')
            else if (k =? 114)%N then cons_opt (Some (ascii_of_N 13)) (json_unescape rest')
            else if (k =? 116)%N then cons_opt (Some (ascii_of_N 9)) (json_unescape rest')
            else if (k =? 102)%N then cons_opt (Some (ascii_of_N 12)) (json_unescape rest')
            else if (k =? 98)%N then cons_opt (Some (ascii_of_N 8)) (json_unescape rest')
            else if (k =? 117)%N then
              match rest' with
              | String a (String b (String c' (String d rest''))) =>
                  cons_opt (unescape_u a b c' d) (json_unescape rest'')
              | _ => None
              end
            else None
        end
      else if ((n <? 32) || (n =? 34))%N then None
      else cons_opt (Some c) (json_unescape rest)
  end.

(** ** Further concrete cases *)

Module Cases.

(** A response that already names a request identifier, twice, between
    other headers. *)
Definition tagged : Response :=
  mkResponse 200
    [("set-cookie", "a=1"); ("x-request-id", "from-handler");
     ("set-cookie", "b=2"); ("x-request-id", "again"); ("etag", "v7")]
    "ok".

Definition answers_tagged : Handler := fun _ => ret tagged.

Definition crash : Handler := fun _ => raise (Exception "database password rejected").

(** A handler that answers in JSON. *)
Definition accepted : Handler :=
  fun _ => ret (JSONResponse 202 (VDict [("queued", VBool true)])).

(** A database initialisation that works, one that fails, and a guarded
    block that ends normally or fails. *)
Definition init_ok : M unit := ret tt.

Definition init_fails : M unit := raise (Exception "connection refused").

Definition serve_ok : M nat := ret 7.

Definition serve_fails : M nat := raise (Exception "worker died").

(** A schema generator whose [components] is not a dictionary. *)
Definition introspect_bad (title version description : string) (routes : unit) : dict :=
  [("openapi", VStr "3.1.0"); ("components", VStr "none")].

Definition midnight : datetime := mkDatetime 2024 12 31 0 0 0 0.

Definition afternoon : datetime := mkDatetime 2024 12 31 15 4 5 250000.

End Cases.

(** * Properties *)

(** ** Dictionaries *)

Section DictFacts.

Lemma dict_get_set_same (k : string) (v : pyval) (d : dict) :
  dict_get k (dict_set k v d) = Some v.
Proof.
  induction d as [| [k' v'] d IH]; simpl.
  - now rewrite String.eqb_refl.
  - destruct (String.eqb k k') eqn:E; simpl; rewrite E; auto.
Qed.

Lemma dict_get_set_other (k k' : string) (v : pyval) (d : dict) :
  k' <> k -> dict_get k' (dict_set k v d) = dict_get k' d.
Proof.
  intros Hne. induction d as [| [k0 v0] d IH]; simpl.
  - apply String.eqb_neq in Hne. now rewrite Hne.
  - destruct (String.eqb k k0) eqn:E; simpl.
    + apply String.eqb_eq in E. subst k0.
      apply String.eqb_neq in Hne. now rewrite Hne.
    + now rewrite IH.
Qed.

Lemma dict_contains_set (k k' : string) (v : pyval) (d : dict) :
  dict_contains k' d = true -> dict_contains k' (dict_set k v d) = true.
Proof.
  unfold dict_contains. intros H.
  destruct (string_dec k' k) as [-> | Hne].
  - now rewrite dict_get_set_same.
  - now rewrite dict_get_set_other.
Qed.

Lemma dict_keys_set (k : string) (v : pyval) (d : dict) :
  dict_keys (dict_set k v d) =
  if dict_contains k d then dict_keys d else (dict_keys d ++ [k])%list.
Proof.
  unfold dict_keys, dict_contains.
  induction d as [| [k' v'] d IH]; simpl; [reflexivity |].
  destruct (String.eqb k k') eqn:E; simpl; [reflexivity |].
  rewrite IH. now destruct (dict_get k d).
Qed.

Lemma dict_set_nonempty (k : string) (v : pyval) (d : dict) :
  dict_set k v d <> [].
Proof.
  destruct d as [| [k' v'] d]; simpl; [discriminate |].
  destruct (String.eqb k k'); discriminate.
Qed.

End DictFacts.

(** ** Response headers *)

Section HeaderFacts.

Lemma raw_get_remove (k k' : string) (hs : Headers) :
  k' <> k -> raw_get k' (raw_remove k hs) = raw_get k' hs.
Proof.
  intros Hne. induction hs as [| [k0 v0] hs IH]; simpl; [reflexivity |].
  destruct (String.eqb k k0) eqn:E; simpl.
  - apply String.eqb_eq in E. subst k0.
    apply String.eqb_neq in Hne. now rewrite Hne.
  - now rewrite IH.
Qed.

Lemma raw_get_remove_same (k : string) (hs : Headers) :
  raw_get k (raw_remove k hs) = None.
Proof.
  induction hs as [| [k0 v0] hs IH]; simpl; [reflexivity |].
  destruct (String.eqb k k0) eqn:E; simpl; [assumption |].
  now rewrite E.
Qed.

Lemma raw_get_set_same (k v : string) (hs : Headers) :
  raw_get k (raw_set k v hs) = Some v.
Proof.
  induction hs as [| [k0 v0] hs IH]; simpl.
  - now rewrite String.eqb_refl.
  - destruct (String.eqb k k0) eqn:E; simpl.
    + now rewrite String.eqb_refl.
    + now rewrite E.
Qed.

Lemma raw_get_set_other (k k' v : string) (hs : Headers) :
  k' <> k -> raw_get k' (raw_set k v hs) = raw_get k' hs.
Proof.
  intros Hne. induction hs as [| [k0 v0] hs IH]; simpl.
  - apply String.eqb_neq in Hne. now rewrite Hne.
  - destruct (String.eqb k k0) eqn:E; simpl.
    + apply String.eqb_eq in E. subst k0.
      apply String.eqb_neq in Hne. rewrite Hne.
      apply raw_get_remove. now apply String.eqb_neq.
    + now rewrite IH.
Qed.

Lemma raw_remove_none_left (k : string) (hs : Headers) :
  filter (fun kv => String.eqb k (fst kv)) (raw_remove k hs) = [].
Proof.
  unfold raw_remove.
  induction hs as [| [k0 v0] hs IH]; simpl; [reflexivity |].
  destruct (String.eqb k k0) eqn:E; simpl; [assumption |].
  now rewrite E.
Qed.

(** After the assignment the list holds the name once. *)
Lemma raw_set_single (k v : string) (hs : Headers) :
  List.length (filter (fun kv => String.eqb k (fst kv)) (raw_set k v hs)) = 1.
Proof.
  induction hs as [| [k0 v0] hs IH]; simpl.
  - now rewrite String.eqb_refl.
  - destruct (String.eqb k k0) eqn:E; simpl.
    + rewrite String.eqb_refl. simpl. now rewrite raw_remove_none_left.
    + now rewrite E.
Qed.

Lemma get_set_header (name value : string) (r : Response) :
  get_header name (headers (set_header name value r)) = Some value.
Proof. unfold get_header, set_header; simpl. apply raw_get_set_same. Qed.

Lemma get_set_header_other (name name' value : string) (r : Response) :
  lower name' <> lower name ->
  get_header name' (headers (set_header name value r)) =
  get_header name' (headers r).
Proof. unfold get_header, set_header; simpl. apply raw_get_set_other. Qed.

End HeaderFacts.

(** ** Formatting *)

Section FormatFacts.

Lemma append_assoc (a b c : string) : (a ++ b) ++ c = a ++ (b ++ c).
Proof. induction a as [| x a IH]; simpl; [reflexivity | now rewrite IH]. Qed.

Lemma append_nil_r (a : string) : a ++ EmptyString = a.
Proof. induction a as [| x a IH]; simpl; [reflexivity | now rewrite IH]. Qed.

Lemma is_digit_digit (d : N) : (d < 10)%N -> is_digit (digit d) = true.
Proof.
  intros Hd. unfold is_digit, digit.
  rewrite N_ascii_embedding by lia.
  apply andb_true_intro; split; apply N.leb_le; lia.
Qed.

Lemma take_digits_add (a b : nat) (s : string) :
  take_digits (a + b) s = bind_opt (take_digits a s) (take_digits b).
Proof.
  revert s. induction a as [| a IH]; intros s; simpl; [reflexivity |].
  destruct s as [| c s]; [reflexivity |].
  destruct (is_digit c); [apply IH | reflexivity].
Qed.

(** Below [10^w] the format is exactly [w] digits. *)
Lemma take_digits_fmt (w : nat) (n : N) (rest : string) :
  (n < 10 ^ N.of_nat w)%N ->
  take_digits w (fmt_0wd w n ++ rest) = Some rest.
Proof.
  revert n rest. induction w as [| w IH]; intros n rest Hn.
  - change (10 ^ N.of_nat 0)%N with 1%N in Hn.
    assert (n = 0%N) as -> by lia. reflexivity.
  - rewrite Nat2N.inj_succ, N.pow_succ_r' in Hn.
    cbn [fmt_0wd]. rewrite append_assoc.
    replace (S w) with (w + 1) by lia.
    rewrite take_digits_add, IH by (apply N.Div0.div_lt_upper_bound; lia).
    simpl. rewrite is_digit_digit; [reflexivity |].
    apply N.mod_lt. lia.
Qed.

Lemma take_digits_fmt_end (w : nat) (n : N) :
  (n < 10 ^ N.of_nat w)%N ->
  take_digits w (fmt_0wd w n) = Some EmptyString.
Proof.
  intros Hn. rewrite <- (append_nil_r (fmt_0wd w n)).
  now apply take_digits_fmt.
Qed.

(** A finite float is printed with three decimal places. *)
Lemma format_3f_three_decimals (x : float) :
  is_finite x = true -> three_decimals (format_3f x).
Proof.
  destruct x as [s | s | | s m e]; simpl; try discriminate; intros _.
  - exists (sign_prefix s ++ "0"), "000". split; [| reflexivity].
    symmetry. apply (append_assoc (sign_prefix s) "0" ".000").
  - exists (sign_prefix s ++ str_N (thousandths m e / 1000)),
           (fmt_0wd 3 (thousandths m e mod 1000)).
    split.
    + symmetry. apply append_assoc.
    + apply take_digits_fmt_end. apply N.mod_lt. discriminate.
Qed.

(** [isoformat] prints a datetime in the ISO 8601 layout. *)
Lemma isoformat_is_iso8601 (t : datetime) :
  valid_datetime t -> is_iso8601 (isoformat t) = true.
Proof.
  intros (Hy & Hmo & Hd & Hh & Hmi & Hs & Hus).
  unfold is_iso8601, isoformat.
  rewrite take_digits_fmt by (simpl; lia). cbn [bind_opt append expect Ascii.eqb Bool.eqb].
  rewrite take_digits_fmt by (simpl; lia). cbn [bind_opt append expect Ascii.eqb Bool.eqb].
  rewrite take_digits_fmt by (simpl; lia). cbn [bind_opt append expect Ascii.eqb Bool.eqb].
  rewrite take_digits_fmt by (simpl; lia). cbn [bind_opt append expect Ascii.eqb Bool.eqb].
  rewrite take_digits_fmt by (simpl; lia). cbn [bind_opt append expect Ascii.eqb Bool.eqb].
  rewrite take_digits_fmt by (simpl; lia).
  destruct (microsecond t =? 0)%N; [reflexivity |].
  cbn [bind_opt append expect Ascii.eqb Bool.eqb].
  rewrite take_digits_fmt_end by (simpl; lia). reflexivity.
Qed.

End FormatFacts.

(** ** The middleware, path by path *)


Section MiddlewarePaths.

Variable env : Env.
Variable request : Request.
Variable call_next : Handler.
Variable w : World.

(** The handler returned: the header is set, the clock read and the INFO
    line written; when that log call raises, the except clause runs. *)
Lemma log_requests_returned (response : Response) (w1 : World) :
  call_next (set_state_request_id request (uuid4 env)) (tick w)
    = (Return response, w1) ->
  let returned := set_header "X-Request-ID" (uuid4 env) response in
  let duration :=
    float_sub (wall_clock env (clock_reads w1)) (wall_clock env (clock_reads w)) in
  let line :=
    mkLog INFO
      (info_message (set_state_request_id request (uuid4 env))
         returned duration (uuid4 env)) in
  log_requests env request call_next w =
  match sink_fault env line with
  | None => (Return returned, emit line (tick w1))
  | Some e =>
      let duration' :=
        float_sub (wall_clock env (S (clock_reads w1))) (wall_clock env (clock_reads w)) in
      let line' :=
        mkLog ERROR
          (error_message e (set_state_request_id request (uuid4 env))
             duration' (uuid4 env)) in
      match sink_fault env line' with
      | None =>
          (Return (JSONResponse 500
                     (error_content (uuid4 env)
                        (utc_clock env (S (S (clock_reads w1)))))),
           tick (emit line' (tick (tick w1))))
      | Some e' => (Raise e', tick (tick w1))
      end
  end.
Proof.
  intros H. cbv zeta.
  unfold log_requests, bind, try_except, time_time, logger_info,
    logger_error, logger_log, datetime_utcnow, ret.
  rewrite H.
  destruct (sink_fault env (mkLog INFO _)) as [e |]; [| reflexivity].
  cbn [tick clock_reads].
  destruct (sink_fault env (mkLog ERROR _)) as [e' |]; reflexivity.
Qed.

(** The handler raised: the clock is read, the ERROR line written and
    the 500 response built. *)
Lemma log_requests_raised (e : exn) (w1 : World) :
  call_next (set_state_request_id request (uuid4 env)) (tick w) = (Raise e, w1) ->
  let duration :=
    float_sub (wall_clock env (clock_reads w1)) (wall_clock env (clock_reads w)) in
  let line :=
    mkLog ERROR
      (error_message e (set_state_request_id request (uuid4 env))
         duration (uuid4 env)) in
  log_requests env request call_next w =
  match sink_fault env line with
  | None =>
      (Return (JSONResponse 500
                 (error_content (uuid4 env) (utc_clock env (S (clock_reads w1))))),
       tick (emit line (tick w1)))
  | Some e' => (Raise e', tick w1)
  end.
Proof.
  intros H. cbv zeta.
  unfold log_requests, bind, try_except, time_time, logger_info,
    logger_error, logger_log, datetime_utcnow, ret.
  rewrite H.
  destruct (sink_fault env (mkLog ERROR _)) as [e' |]; reflexivity.
Qed.

End MiddlewarePaths.

(** The synthesized 500 response carries no [X-Request-ID] header. *)
Lemma error_response_headers (request_id : string) (now : datetime) :
  get_header "X-Request-ID"
    (headers (JSONResponse 500 (error_content request_id now))) = None.
Proof. reflexivity. Qed.

(** With a sink that takes every record, a returned response comes back
    with the header set. *)
Lemma returned_response_comes_back
    (env : Env) (request : Request) (call_next : Handler)
    (w : World) (response : Response) (w1 : World) :
  sink_accepts env ->
  call_next (set_state_request_id request (uuid4 env)) (tick w) = (Return response, w1) ->
  exists w2,
    log_requests env request call_next w =
      (Return (set_header "X-Request-ID" (uuid4 env) response), w2).
Proof.
  intros Hsink Hnext.
  pose proof (log_requests_returned env request call_next w response w1 Hnext) as Hrun.
  cbv zeta in Hrun. rewrite Hsink in Hrun.
  eexists. exact Hrun.
Qed.


(** ** The claims about the middleware *)

(** C1, at a request whose handler raises: the middleware writes its one
    ERROR line and answers with the synthesized 500 response, whose body
    carries the request identifier, but whose headers are the two a JSON
    response starts with; no [X-Request-ID] header is set on this path. *)
Example log_requests_error_response_without_header :
  exists response w',
    log_requests Sample.env Sample.request Sample.boom Sample.w0 = (Return response, w')
    /\ status_code response = 500%Z
    /\ response = JSONResponse 500 (error_content (uuid4 Sample.env) (Sample.calendar 2))
    /\ List.length (sink w') = 1
    /\ headers response = [("content-length", "127"); ("content-type", "application/json")]
    /\ get_header "X-Request-ID" (headers response) = None.
Proof.
  eexists. eexists. split; [vm_compute; reflexivity |].
  repeat split; reflexivity.
Qed.

(** C2: when the downstream handler raises, the middleware returns a
    response with status 500 whose JSON content is [detail], the fixed
    text ["Internal server error"] whatever the failure's message,
    [request_id], the identifier that the ERROR line of this request
    ends with, and [timestamp], the UTC clock reading in ISO 8601
    layout. *)
Theorem unhandled_failure_yields_500
    (env : Env) (request : Request) (call_next : Handler)
    (w w1 : World) (e : exn) :
  sink_accepts env ->
  valid_datetime (utc_clock env (S (clock_reads w1))) ->
  call_next (set_state_request_id request (uuid4 env)) (tick w) = (Raise e, w1) ->
  exists w2 timestamp duration,
    log_requests env request call_next w =
      (Return (JSONResponse 500
                 (VDict [("detail", VStr "Internal server error");
                         ("request_id", VStr (uuid4 env));
                         ("timestamp", VStr timestamp)])), w2)
    /\ status_code (JSONResponse 500
                 (VDict [("detail", VStr "Internal server error");
                         ("request_id", VStr (uuid4 env));
                         ("timestamp", VStr timestamp)])) = 500%Z
    /\ timestamp = isoformat (utc_clock env (S (clock_reads w1)))
    /\ is_iso8601 timestamp = true
    /\ sink w2 =
       (sink w1 ++
        [mkLog ERROR
           ("Unhandled exception: " ++ str_exn e ++ " - "
            ++ method request ++ " " ++ url_path request ++ " - "
            ++ "Duration: " ++ format_3f duration ++ "s - "
            ++ "Request ID: " ++ uuid4 env)])%list.
Proof.
  intros Hsink Hvalid Hnext.
  pose proof (log_requests_raised env request call_next w e w1 Hnext) as Hrun.
  cbv zeta in Hrun. rewrite Hsink in Hrun.
  eexists. exists (isoformat (utc_clock env (S (clock_reads w1)))). eexists.
  split; [exact Hrun |].
  split; [reflexivity |].
  split; [reflexivity |].
  split; [now apply isoformat_is_iso8601 |].
  reflexivity.
Qed.

Lemma unhandled_failure_yields_500_witness :
  exists w2 timestamp duration,
    log_requests Sample.env Sample.request Sample.boom Sample.w0 =
      (Return (JSONResponse 500
                 (VDict [("detail", VStr "Internal server error");
                         ("request_id", VStr (uuid4 Sample.env));
                         ("timestamp", VStr timestamp)])), w2)
    /\ status_code (JSONResponse 500
                 (VDict [("detail", VStr "Internal server error");
                         ("request_id", VStr (uuid4 Sample.env));
                         ("timestamp", VStr timestamp)])) = 500%Z
    /\ timestamp = isoformat (utc_clock Sample.env (S (clock_reads (tick Sample.w0))))
    /\ is_iso8601 timestamp = true
    /\ sink w2 =
       (sink (tick Sample.w0) ++
        [mkLog ERROR
           ("Unhandled exception: " ++ str_exn (Exception "boom") ++ " - "
            ++ method Sample.request ++ " " ++ url_path Sample.request ++ " - "
            ++ "Duration: " ++ format_3f duration ++ "s - "
            ++ "Request ID: " ++ uuid4 Sample.env)])%list.
Proof.
  apply (unhandled_failure_yields_500 Sample.env Sample.request Sample.boom
           Sample.w0 (tick Sample.w0) (Exception "boom")).
  - intro r. reflexivity.
  - unfold valid_datetime. simpl. lia.
  - reflexivity.
Defined.

(** C6: when the downstream handler returns a response, the middleware
    returns that response with the [X-Request-ID] header set and nothing
    else changed: same status code, whatever it is (a 4xx status is passed
    on as the handler gave it), same body, same value for every other
    header; the response's status is only written to the INFO line. *)
Theorem log_requests_passes_response_through
    (env : Env) (request : Request) (call_next : Handler)
    (w w1 : World) (response : Response) :
  sink_accepts env ->
  call_next (set_state_request_id request (uuid4 env)) (tick w) = (Return response, w1) ->
  exists w2 duration,
    let returned := set_header "X-Request-ID" (uuid4 env) response in
    log_requests env request call_next w = (Return returned, w2)
    /\ status_code returned = status_code response
    /\ body returned = body response
    /\ get_header "X-Request-ID" (headers returned) = Some (uuid4 env)
    /\ (forall name, lower name <> lower "X-Request-ID" ->
          get_header name (headers returned) = get_header name (headers response))
    /\ sink w2 =
       (sink w1 ++
        [mkLog INFO
           (method request ++ " " ++ url_path request ++ " - "
            ++ "Status: " ++ str_int (status_code response) ++ " - "
            ++ "Duration: " ++ format_3f duration ++ "s - "
            ++ "Request ID: " ++ uuid4 env)])%list.
Proof.
  intros Hsink Hnext.
  pose proof (log_requests_returned env request call_next w response w1 Hnext) as Hrun.
  cbv zeta in Hrun. rewrite Hsink in Hrun.
  eexists. eexists. cbv zeta.
  split; [exact Hrun |].
  split; [reflexivity |].
  split; [reflexivity |].
  split; [apply get_set_header |].
  split; [intros name Hname; now apply get_set_header_other |].
  reflexivity.
Qed.

Lemma log_requests_passes_response_through_witness :
  exists w2 duration,
    let returned := set_header "X-Request-ID" (uuid4 Sample.env) Sample.created in
    log_requests Sample.env Sample.request Sample.answers Sample.w0 = (Return returned, w2)
    /\ status_code returned = status_code Sample.created
    /\ body returned = body Sample.created
    /\ get_header "X-Request-ID" (headers returned) = Some (uuid4 Sample.env)
    /\ (forall name, lower name <> lower "X-Request-ID" ->
          get_header name (headers returned) = get_header name (headers Sample.created))
    /\ sink w2 =
       (sink (tick Sample.w0) ++
        [mkLog INFO
           (method Sample.request ++ " " ++ url_path Sample.request ++ " - "
            ++ "Status: " ++ str_int (status_code Sample.created) ++ " - "
            ++ "Duration: " ++ format_3f duration ++ "s - "
            ++ "Request ID: " ++ uuid4 Sample.env)])%list.
Proof.
  apply (log_requests_passes_response_through Sample.env Sample.request
           Sample.answers Sample.w0 (tick Sample.w0) Sample.created).
  - intro r. reflexivity.
  - reflexivity.
Defined.

(** C7: the line a request leaves in the log depends on the path taken.
    After a normal return it is an INFO record made of the method, the
    path, the status code, the duration and the request identifier; after
    a failure it is an ERROR record made of the failure's message, the
    method, the path, the duration and the same identifier.  On both
    paths the duration is the clock reading taken after the handler
    finished minus the reading taken at entry, and a finite duration is
    printed with three decimal places. *)
Theorem log_line_content
    (env : Env) (request : Request) (call_next : Handler)
    (w w1 : World) (outcome : result Response) :
  sink_accepts env ->
  call_next (set_state_request_id request (uuid4 env)) (tick w) = (outcome, w1) ->
  let duration :=
    float_sub (wall_clock env (clock_reads w1)) (wall_clock env (clock_reads w)) in
  sink (snd (log_requests env request call_next w)) =
    (sink w1 ++
     [match outcome with
      | Return response =>
          mkLog INFO
            (method request ++ " " ++ url_path request ++ " - "
             ++ "Status: " ++ str_int (status_code response) ++ " - "
             ++ "Duration: " ++ format_3f duration ++ "s - "
             ++ "Request ID: " ++ uuid4 env)
      | Raise e =>
          mkLog ERROR
            ("Unhandled exception: " ++ str_exn e ++ " - "
             ++ method request ++ " " ++ url_path request ++ " - "
             ++ "Duration: " ++ format_3f duration ++ "s - "
             ++ "Request ID: " ++ uuid4 env)
      end])%list
  /\ (is_finite duration = true -> three_decimals (format_3f duration)).
Proof.
  intros Hsink Hnext duration. split; [| apply format_3f_three_decimals].
  destruct outcome as [response | e].
  - pose proof (log_requests_returned env request call_next w response w1 Hnext) as Hrun.
    cbv zeta in Hrun. rewrite Hsink in Hrun. rewrite Hrun. reflexivity.
  - pose proof (log_requests_raised env request call_next w e w1 Hnext) as Hrun.
    cbv zeta in Hrun. rewrite Hsink in Hrun. rewrite Hrun. reflexivity.
Qed.

Lemma log_line_content_witness :
  let duration :=
    float_sub (wall_clock Sample.env 1) (wall_clock Sample.env 0) in
  sink (snd (log_requests Sample.env Sample.request Sample.boom Sample.w0)) =
    [mkLog ERROR
       ("Unhandled exception: boom - GET /no-such-route - "
        ++ "Duration: " ++ format_3f duration ++ "s - "
        ++ "Request ID: " ++ Sample.rid)]
  /\ (is_finite duration = true -> three_decimals (format_3f duration)).
Proof.
  apply (log_line_content Sample.env Sample.request Sample.boom
           Sample.w0 (tick Sample.w0) (Raise (Exception "boom"))).
  - intro r. reflexivity.
  - reflexivity.
Defined.

(** C5, refuted as stated: a sink that refuses INFO records makes the
    middleware return the synthesized 500 response, not the response the
    handler produced. *)
Lemma logging_failure_changes_response :
  ~ (forall env request call_next w w1 outcome,
       call_next (set_state_request_id request (uuid4 env)) (tick w) = (outcome, w1) ->
       exists response w2,
         log_requests env request call_next w = (Return response, w2)
         /\ (forall produced, outcome = Return produced ->
               response = set_header "X-Request-ID" (uuid4 env) produced)).
Proof.
  intros claim.
  destruct (claim Sample.env_info_down Sample.request Sample.answers
              Sample.w0 (tick Sample.w0) (Return Sample.created) eq_refl)
    as (response & w2 & Hrun & Hsame).
  specialize (Hsame Sample.created eq_refl). subst response.
  vm_compute in Hrun. discriminate Hrun.
Qed.

(** C5, as the code has it: a log call that raises is not swallowed.
    When the INFO call raises after the handler returned, the except
    clause of the middleware catches that failure: it reads the clock
    again, logs the failure at ERROR level and returns the synthesized
    500 response in place of the handler's response.  When the ERROR call
    raises, on either path, the exception leaves the middleware. *)
Theorem log_failure_is_not_swallowed
    (env : Env) (request : Request) (call_next : Handler)
    (w w1 : World) (outcome : result Response) (failure : exn) :
  call_next (set_state_request_id request (uuid4 env)) (tick w) = (outcome, w1) ->
  sink_fault env
    (let request' := set_state_request_id request (uuid4 env) in
     let duration :=
       float_sub (wall_clock env (clock_reads w1)) (wall_clock env (clock_reads w)) in
     match outcome with
     | Return response =>
         mkLog INFO
           (info_message request'
              (set_header "X-Request-ID" (uuid4 env) response) duration (uuid4 env))
     | Raise e => mkLog ERROR (error_message e request' duration (uuid4 env))
     end) = Some failure ->
  log_requests env request call_next w =
  match outcome with
  | Return _ =>
      let line :=
        mkLog ERROR
          (error_message failure (set_state_request_id request (uuid4 env))
             (float_sub (wall_clock env (S (clock_reads w1)))
                        (wall_clock env (clock_reads w)))
             (uuid4 env)) in
      match sink_fault env line with
      | None =>
          (Return (JSONResponse 500
                     (error_content (uuid4 env)
                        (utc_clock env (S (S (clock_reads w1)))))),
           tick (emit line (tick (tick w1))))
      | Some e' => (Raise e', tick (tick w1))
      end
  | Raise _ => (Raise failure, tick w1)
  end.
Proof.
  intros Hnext Hfault. cbv zeta in Hfault.
  destruct outcome as [response | e].
  - pose proof (log_requests_returned env request call_next w response w1 Hnext) as Hrun.
    cbv zeta in Hrun. rewrite Hfault in Hrun. exact Hrun.
  - pose proof (log_requests_raised env request call_next w e w1 Hnext) as Hrun.
    cbv zeta in Hrun. rewrite Hfault in Hrun. exact Hrun.
Qed.

Lemma log_failure_is_not_swallowed_witness :
  log_requests Sample.env_info_down Sample.request Sample.answers Sample.w0 =
    (Return (JSONResponse 500 (error_content Sample.rid (Sample.calendar 3))),
     mkWorld
       [mkLog ERROR
          ("Unhandled exception: log sink unavailable - GET /no-such-route - "
           ++ "Duration: 0.244s - Request ID: " ++ Sample.rid)]
       4)
  /\ log_requests Sample.env_down Sample.request Sample.boom Sample.w0 =
    (Raise Sample.unavailable, mkWorld [] 2).
Proof.
  split.
  - exact (log_failure_is_not_swallowed Sample.env_info_down Sample.request
             Sample.answers Sample.w0 (tick Sample.w0) (Return Sample.created)
             Sample.unavailable eq_refl eq_refl).
  - exact (log_failure_is_not_swallowed Sample.env_down Sample.request
             Sample.boom Sample.w0 (tick Sample.w0) (Raise (Exception "boom"))
             Sample.unavailable eq_refl eq_refl).
Defined.

(** C8: a request that no route matches is answered by the handler
    registered for status 404.  The service then returns status 404 with
    a JSON body made of [detail], the requested [path] as it was asked
    for, and a [timestamp] in ISO 8601 layout read from the UTC clock;
    these are its only fields, so it has none for a request
    identifier. *)
Theorem unmatched_path_yields_404
    (env : Env) (request : Request) (call_next : Handler) (exc : exn) (w : World) :
  sink_accepts env ->
  valid_datetime (utc_clock env (S (clock_reads w))) ->
  call_next (set_state_request_id request (uuid4 env)) (tick w) =
    not_found_handler env (set_state_request_id request (uuid4 env)) exc (tick w) ->
  exists w2 timestamp,
    let content :=
      [("detail", VStr "Endpoint not found");
       ("path", VStr (url_path request));
       ("timestamp", VStr timestamp)] in
    log_requests env request call_next w =
      (Return (set_header "X-Request-ID" (uuid4 env)
                 (JSONResponse 404 (VDict content))), w2)
    /\ status_code (set_header "X-Request-ID" (uuid4 env)
                      (JSONResponse 404 (VDict content))) = 404%Z
    /\ body (set_header "X-Request-ID" (uuid4 env)
               (JSONResponse 404 (VDict content))) = json_dumps (VDict content)
    /\ timestamp = isoformat (utc_clock env (S (clock_reads w)))
    /\ is_iso8601 timestamp = true
    /\ dict_keys content = ["detail"; "path"; "timestamp"]
    /\ dict_get "request_id" content = None.
Proof.
  intros Hsink Hvalid Hnext.
  assert (Hret : call_next (set_state_request_id request (uuid4 env)) (tick w) =
                 (Return (JSONResponse 404
                            (not_found_content request
                               (utc_clock env (S (clock_reads w))))),
                  tick (tick w))) by (rewrite Hnext; reflexivity).
  destruct (returned_response_comes_back env request call_next w _ _ Hsink Hret)
    as (w2 & Hrun).
  exists w2, (isoformat (utc_clock env (S (clock_reads w)))). cbv zeta.
  split; [exact Hrun |].
  split; [reflexivity |].
  split; [reflexivity |].
  split; [reflexivity |].
  split; [now apply isoformat_is_iso8601 |].
  split; reflexivity.
Qed.

Lemma unmatched_path_yields_404_witness :
  exists w2 timestamp,
    let content :=
      [("detail", VStr "Endpoint not found");
       ("path", VStr "/no-such-route");
       ("timestamp", VStr timestamp)] in
    log_requests Sample.env Sample.request
      (fun r => not_found_handler Sample.env r (Exception "Not Found")) Sample.w0 =
      (Return (set_header "X-Request-ID" Sample.rid
                 (JSONResponse 404 (VDict content))), w2)
    /\ status_code (set_header "X-Request-ID" Sample.rid
                      (JSONResponse 404 (VDict content))) = 404%Z
    /\ body (set_header "X-Request-ID" Sample.rid
               (JSONResponse 404 (VDict content))) = json_dumps (VDict content)
    /\ timestamp = isoformat (Sample.calendar 1)
    /\ is_iso8601 timestamp = true
    /\ dict_keys content = ["detail"; "path"; "timestamp"]
    /\ dict_get "request_id" content = None.
Proof.
  apply (unmatched_path_yields_404 Sample.env Sample.request
           (fun r => not_found_handler Sample.env r (Exception "Not Found"))
           (Exception "Not Found") Sample.w0).
  - intro r. reflexivity.
  - unfold valid_datetime. simpl. lia.
  - reflexivity.
Defined.

(** C9: a request routed to the root endpoint, [GET /], is answered
    with status 200 and a JSON body whose fields are [name], [version],
    [status] with value ["operational"], [docs] with value ["/docs"],
    [health] with value ["/api/v1/health"], and [timestamp]. *)
Theorem root_yields_200
    (env : Env) (settings : Settings) (request : Request)
    (call_next : Handler) (w : World) :
  sink_accepts env ->
  call_next (set_state_request_id request (uuid4 env)) (tick w) =
    get_route (root env settings) (set_state_request_id request (uuid4 env)) (tick w) ->
  exists w2 content,
    log_requests env request call_next w =
      (Return (set_header "X-Request-ID" (uuid4 env)
                 (JSONResponse 200 (VDict content))), w2)
    /\ status_code (set_header "X-Request-ID" (uuid4 env)
                      (JSONResponse 200 (VDict content))) = 200%Z
    /\ body (set_header "X-Request-ID" (uuid4 env)
               (JSONResponse 200 (VDict content))) = json_dumps (VDict content)
    /\ dict_keys content =
         ["name"; "version"; "status"; "docs"; "health"; "timestamp"]
    /\ dict_get "name" content = Some (VStr (API_TITLE settings))
    /\ dict_get "version" content = Some (VStr (API_VERSION settings))
    /\ dict_get "status" content = Some (VStr "operational")
    /\ dict_get "docs" content = Some (VStr "/docs")
    /\ dict_get "health" content = Some (VStr "/api/v1/health")
    /\ dict_get "timestamp" content =
         Some (VStr (isoformat (utc_clock env (S (clock_reads w))))).
Proof.
  intros Hsink Hnext.
  destruct (returned_response_comes_back env request call_next w _ _ Hsink Hnext)
    as (w2 & Hrun).
  exists w2. eexists.
  split; [exact Hrun |].
  repeat split; reflexivity.
Qed.

Lemma root_yields_200_witness :
  exists w2 content,
    log_requests Sample.env (mkRequest "GET" "/" None)
      (get_route (root Sample.env Sample.settings)) Sample.w0 =
      (Return (set_header "X-Request-ID" Sample.rid
                 (JSONResponse 200 (VDict content))), w2)
    /\ status_code (set_header "X-Request-ID" Sample.rid
                      (JSONResponse 200 (VDict content))) = 200%Z
    /\ body (set_header "X-Request-ID" Sample.rid
               (JSONResponse 200 (VDict content))) = json_dumps (VDict content)
    /\ dict_keys content =
         ["name"; "version"; "status"; "docs"; "health"; "timestamp"]
    /\ dict_get "name" content = Some (VStr "Analytics API")
    /\ dict_get "version" content = Some (VStr "1.0.0")
    /\ dict_get "status" content = Some (VStr "operational")
    /\ dict_get "docs" content = Some (VStr "/docs")
    /\ dict_get "health" content = Some (VStr "/api/v1/health")
    /\ dict_get "timestamp" content = Some (VStr (isoformat (Sample.calendar 1))).
Proof.
  apply (root_yields_200 Sample.env Sample.settings (mkRequest "GET" "/" None)
           (get_route (root Sample.env Sample.settings)) Sample.w0).
  - intro r. reflexivity.
  - reflexivity.
Defined.

(** ** The schema augmentation *)

Section AugmentFacts.

Lemma dict_set_set (k : string) (v v' : pyval) (d : dict) :
  dict_set k v (dict_set k v' d) = dict_set k v d.
Proof.
  induction d as [| [k0 v0] d IH]; simpl.
  - now rewrite String.eqb_refl.
  - destruct (String.eqb k k0) eqn:E; simpl; rewrite E; [reflexivity |].
    now rewrite IH.
Qed.


(** On a schema of the expected shape the augmentation succeeds, and
    its result is the schema with the bearer scheme stored along the
    path [components], [securitySchemes], [bearerAuth]. *)
Lemma augment_schema_path (schema : dict) :
  schema_shape schema ->
  augment_schema schema =
  Some (dict_set "components"
          (VDict (dict_set "securitySchemes"
                    (VDict (dict_set "bearerAuth" bearerAuth_scheme
                              (schemes_of (components_of schema))))
                    (components_of schema)))
          schema).
Proof.
  intros Hshape. unfold augment_schema, components_of, schemes_of, dict_contains.
  destruct (dict_get "components" schema) as [v |] eqn:Hc.
  - destruct (Hshape v Hc) as (components & -> & Hschemes).
    cbn [negb]. rewrite Hc.
    destruct (dict_get "securitySchemes" components) as [v' |] eqn:Hs.
    + destruct (Hschemes v' eq_refl) as (schemes & ->).
      cbn [negb]. rewrite Hs. reflexivity.
    + cbn [negb]. rewrite dict_get_set_same, dict_set_set. reflexivity.
  - cbn [negb]. rewrite dict_get_set_same. cbn [dict_get negb].
    rewrite dict_get_set_same, !dict_set_set. reflexivity.
Qed.

Lemma augment_schema_nonempty (schema out : dict) :
  augment_schema schema = Some out -> out <> [].
Proof.
  unfold augment_schema.
  destruct (dict_get "components" _) as [[| | | | | components] |]; try discriminate.
  destruct (dict_get "securitySchemes" _) as [[| | | | | schemes] |]; try discriminate.
  intros [= <-]. apply dict_set_nonempty.
Qed.

End AugmentFacts.

(** C3: on every base schema the augmentation keeps all the top-level
    keys, in their order, with [components] added at the end when it was
    missing, and leaves the value of every top-level key other than
    [components] as it was.  Under [components] it keeps every entry
    other than [securitySchemes], and under [securitySchemes] every entry
    other than [bearerAuth]; both containers are created when absent.
    The result holds, at [components.securitySchemes.bearerAuth], a
    scheme with [type] ["http"], [scheme] ["bearer"] and [bearerFormat]
    ["JWT"]. *)
Theorem augment_schema_preserves_and_adds (schema : dict) :
  schema_shape schema ->
  exists out components schemes bearer,
    augment_schema schema = Some out
    /\ (forall k, dict_contains k schema = true -> dict_contains k out = true)
    /\ (forall k, k <> "components" -> dict_get k out = dict_get k schema)
    /\ dict_keys out =
         (if dict_contains "components" schema then dict_keys schema
          else dict_keys schema ++ ["components"])%list
    /\ dict_get "components" out = Some (VDict components)
    /\ (forall old, dict_get "components" schema = Some (VDict old) ->
          (forall k, dict_contains k old = true -> dict_contains k components = true)
          /\ (forall k, k <> "securitySchemes" ->
                dict_get k components = dict_get k old)
          /\ (forall old_schemes,
                dict_get "securitySchemes" old = Some (VDict old_schemes) ->
                (forall k, dict_contains k old_schemes = true ->
                   dict_contains k schemes = true)
                /\ (forall k, k <> "bearerAuth" ->
                      dict_get k schemes = dict_get k old_schemes))
          /\ (dict_get "securitySchemes" old = None ->
                schemes = [("bearerAuth", VDict bearer)]))
    /\ (dict_get "components" schema = None ->
          components = [("securitySchemes", VDict [("bearerAuth", VDict bearer)])])
    /\ dict_get "securitySchemes" components = Some (VDict schemes)
    /\ dict_get "bearerAuth" schemes = Some (VDict bearer)
    /\ dict_get "type" bearer = Some (VStr "http")
    /\ dict_get "scheme" bearer = Some (VStr "bearer")
    /\ dict_get "bearerFormat" bearer = Some (VStr "JWT").
Proof.
  intros Hshape.
  set (schemes := dict_set "bearerAuth" bearerAuth_scheme
                    (schemes_of (components_of schema))).
  set (components := dict_set "securitySchemes" (VDict schemes)
                       (components_of schema)).
  exists (dict_set "components" (VDict components) schema), components, schemes.
  exists [("type", VStr "http");
          ("scheme", VStr "bearer");
          ("bearerFormat", VStr "JWT");
          ("description",
           VStr "API Key as Bearer token. Create one at POST /api/v1/keys/ (first key doesn't require auth)")].
  split; [apply (augment_schema_path schema Hshape) |].
  split; [intros k Hk; now apply dict_contains_set |].
  split; [intros k Hk; now apply dict_get_set_other |].
  split; [apply dict_keys_set |].
  split; [apply dict_get_set_same |].
  split.
  { intros old Hold. subst components schemes.
    assert (components_of schema = old) as ->
        by (unfold components_of; now rewrite Hold).
    split; [intros k Hk; now apply dict_contains_set |].
    split; [intros k Hk; now apply dict_get_set_other |].
    split.
    - intros old_schemes Hs.
      assert (schemes_of old = old_schemes) as ->
          by (unfold schemes_of; now rewrite Hs).
      split; [intros k Hk; now apply dict_contains_set |].
      intros k Hk. now apply dict_get_set_other.
    - intros Hs.
      assert (schemes_of old = []) as ->
          by (unfold schemes_of; now rewrite Hs).
      reflexivity. }
  split.
  { intros Hnone. subst components schemes.
    assert (components_of schema = []) as ->
        by (unfold components_of; now rewrite Hnone).
    reflexivity. }
  split; [apply dict_get_set_same |].
  split; [apply dict_get_set_same |].
  repeat split; reflexivity.
Qed.

Lemma augment_schema_preserves_and_adds_witness :
  exists out components schemes bearer,
    augment_schema Sample.bare_schema = Some out
    /\ (forall k, dict_contains k Sample.bare_schema = true -> dict_contains k out = true)
    /\ (forall k, k <> "components" -> dict_get k out = dict_get k Sample.bare_schema)
    /\ dict_keys out =
         (if dict_contains "components" Sample.bare_schema
          then dict_keys Sample.bare_schema
          else dict_keys Sample.bare_schema ++ ["components"])%list
    /\ dict_get "components" out = Some (VDict components)
    /\ (forall old, dict_get "components" Sample.bare_schema = Some (VDict old) ->
          (forall k, dict_contains k old = true -> dict_contains k components = true)
          /\ (forall k, k <> "securitySchemes" ->
                dict_get k components = dict_get k old)
          /\ (forall old_schemes,
                dict_get "securitySchemes" old = Some (VDict old_schemes) ->
                (forall k, dict_contains k old_schemes = true ->
                   dict_contains k schemes = true)
                /\ (forall k, k <> "bearerAuth" ->
                      dict_get k schemes = dict_get k old_schemes))
          /\ (dict_get "securitySchemes" old = None ->
                schemes = [("bearerAuth", VDict bearer)]))
    /\ (dict_get "components" Sample.bare_schema = None ->
          components = [("securitySchemes", VDict [("bearerAuth", VDict bearer)])])
    /\ dict_get "securitySchemes" components = Some (VDict schemes)
    /\ dict_get "bearerAuth" schemes = Some (VDict bearer)
    /\ dict_get "type" bearer = Some (VStr "http")
    /\ dict_get "scheme" bearer = Some (VStr "bearer")
    /\ dict_get "bearerFormat" bearer = Some (VStr "JWT").
Proof.
  apply (augment_schema_preserves_and_adds Sample.bare_schema).
  intros v Hv. discriminate Hv.
Defined.

(** C10: when the base schema already has an entry at
    [components.securitySchemes.bearerAuth], whatever it is, the
    augmentation stores the fixed bearer scheme in its place: afterwards
    the entry is the fixed scheme, nothing of the previous value is kept,
    and the other security schemes stand as they were. *)
Theorem augment_schema_overwrites_bearerAuth
    (schema components schemes : dict) (previous : pyval) :
  dict_get "components" schema = Some (VDict components) ->
  dict_get "securitySchemes" components = Some (VDict schemes) ->
  dict_get "bearerAuth" schemes = Some previous ->
  exists out components' schemes',
    augment_schema schema = Some out
    /\ dict_get "components" out = Some (VDict components')
    /\ dict_get "securitySchemes" components' = Some (VDict schemes')
    /\ dict_get "bearerAuth" schemes' = Some bearerAuth_scheme
    /\ schemes' = dict_set "bearerAuth" bearerAuth_scheme schemes
    /\ dict_keys schemes' = dict_keys schemes
    /\ (forall k, k <> "bearerAuth" -> dict_get k schemes' = dict_get k schemes).
Proof.
  intros Hc Hs Hb.
  assert (Hshape : schema_shape schema).
  { intros v Hv. rewrite Hc in Hv. injection Hv as <-.
    exists components. split; [reflexivity |].
    intros v' Hv'. rewrite Hs in Hv'. injection Hv' as <-.
    now exists schemes. }
  pose proof (augment_schema_path schema Hshape) as Hout.
  assert (components_of schema = components) as Ec
      by (unfold components_of; now rewrite Hc).
  assert (schemes_of components = schemes) as Es
      by (unfold schemes_of; now rewrite Hs).
  rewrite Ec, Es in Hout.
  eexists. eexists. eexists.
  split; [exact Hout |].
  split; [apply dict_get_set_same |].
  split; [apply dict_get_set_same |].
  split; [apply dict_get_set_same |].
  split; [reflexivity |].
  split.
  - rewrite dict_keys_set. unfold dict_contains. now rewrite Hb.
  - intros k Hk. now apply dict_get_set_other.
Qed.

Lemma augment_schema_overwrites_bearerAuth_witness :
  exists out components' schemes',
    augment_schema Sample.keyed_schema = Some out
    /\ dict_get "components" out = Some (VDict components')
    /\ dict_get "securitySchemes" components' = Some (VDict schemes')
    /\ dict_get "bearerAuth" schemes' = Some bearerAuth_scheme
    /\ schemes' = dict_set "bearerAuth" bearerAuth_scheme Sample.keyed_schemes
    /\ dict_keys schemes' = dict_keys Sample.keyed_schemes
    /\ (forall k, k <> "bearerAuth" ->
          dict_get k schemes' = dict_get k Sample.keyed_schemes).
Proof.
  apply (augment_schema_overwrites_bearerAuth Sample.keyed_schema
           Sample.keyed_components Sample.keyed_schemes Sample.basic_scheme);
    reflexivity.
Defined.

(** ** The schema getter *)

Section GetterFacts.

Variable Routes : Type.
Variable get_openapi : string -> string -> string -> Routes -> dict.
Variable settings : Settings.

(** A call that finds a non-empty schema in the cache returns it and
    changes nothing. *)
Lemma custom_openapi_cached (app : App Routes) (schema : dict) :
  openapi_schema app = Some schema ->
  schema <> [] ->
  custom_openapi get_openapi settings app = (Some schema, app).
Proof.
  intros Hcache Hne. unfold custom_openapi. rewrite Hcache.
  destruct schema as [| entry schema]; [contradiction |].
  reflexivity.
Qed.

Lemma custom_openapi_stays (app : App Routes) (schema : dict) (n : nat) :
  openapi_schema app = Some schema ->
  schema <> [] ->
  Nat.iter n (fun a => snd (custom_openapi get_openapi settings a)) app = app.
Proof.
  intros Hcache Hne. induction n as [| n IH]; simpl; [reflexivity |].
  rewrite IH. now rewrite (custom_openapi_cached app schema Hcache Hne).
Qed.

End GetterFacts.

(** C4: the first call of the schema getter, on an empty cache, asks
    the framework for the base schema once, augments it, stores the result
    in the cache and returns it; every later call returns that same
    schema and leaves the application as the first call left it: the
    cache holds the same content and the framework is not asked again. *)
Theorem custom_openapi_idempotent
    (Routes : Type) (get_openapi : string -> string -> string -> Routes -> dict)
    (settings : Settings) (app : App Routes) :
  truthy (openapi_schema app) = false ->
  schema_shape (get_openapi (API_TITLE settings) (API_VERSION settings)
                            api_description (routes app)) ->
  exists schema,
    let app1 := mkApp (Some schema) (routes app) (S (introspections app)) in
    augment_schema (get_openapi (API_TITLE settings) (API_VERSION settings)
                                api_description (routes app)) = Some schema
    /\ custom_openapi get_openapi settings app = (Some schema, app1)
    /\ forall n,
         custom_openapi get_openapi settings
           (Nat.iter n (fun a => snd (custom_openapi get_openapi settings a)) app1)
         = (Some schema, app1).
Proof.
  intros Hempty Hshape.
  pose proof (augment_schema_path _ Hshape) as Hout.
  eexists. cbv zeta.
  split; [exact Hout |].
  split.
  - unfold custom_openapi. rewrite Hempty, Hout. reflexivity.
  - intros n.
    match goal with
    | |- custom_openapi _ _ (Nat.iter _ _ ?a) = (Some ?s, _) =>
        rewrite (custom_openapi_stays Routes get_openapi settings a s n);
        [apply custom_openapi_cached | |];
        first [reflexivity | apply dict_set_nonempty]
    end.
Qed.

Lemma custom_openapi_idempotent_witness :
  exists schema,
    let app1 := mkApp (Some schema) tt 1 in
    augment_schema Sample.bare_schema = Some schema
    /\ custom_openapi Sample.introspect Sample.settings (mkApp None tt 0)
       = (Some schema, app1)
    /\ forall n,
         custom_openapi Sample.introspect Sample.settings
           (Nat.iter n
              (fun a => snd (custom_openapi Sample.introspect Sample.settings a)) app1)
         = (Some schema, app1).
Proof.
  apply (custom_openapi_idempotent unit Sample.introspect Sample.settings
           (mkApp None tt 0)).
  - reflexivity.
  - intros v Hv. discriminate Hv.
Defined.


(** * Further properties of the code *)

(** ** The middleware on every path *)







(** X4: the response to a failure tells nothing about the failure: two
    handlers that raise different exceptions at the same moment get the
    same response, status, headers and body. *)
Theorem error_response_hides_the_failure
    (env : Env) (request : Request) (first second : Handler)
    (w w1 : World) (e1 e2 : exn) :
  sink_accepts env ->
  first (set_state_request_id request (uuid4 env)) (tick w) = (Raise e1, w1) ->
  second (set_state_request_id request (uuid4 env)) (tick w) = (Raise e2, w1) ->
  fst (log_requests env request first w) = fst (log_requests env request second w).
Proof.
  intros Hsink H1 H2.
  pose proof (log_requests_raised env request first w e1 w1 H1) as R1.
  pose proof (log_requests_raised env request second w e2 w1 H2) as R2.
  cbv zeta in R1, R2. rewrite Hsink in R1, R2.
  now rewrite R1, R2.
Qed.

Lemma error_response_hides_the_failure_witness :
  fst (log_requests Sample.env Sample.request Sample.boom Sample.w0) =
  fst (log_requests Sample.env Sample.request Cases.crash Sample.w0).
Proof.
  apply (error_response_hides_the_failure Sample.env Sample.request
           Sample.boom Cases.crash Sample.w0 (tick Sample.w0)
           (Exception "boom") (Exception "database password rejected")).
  - intro r. reflexivity.
  - reflexivity.
  - reflexivity.
Defined.

(** ** Headers of the returned response *)

Lemma raw_remove_twice (k : string) (hs : Headers) :
  raw_remove k (raw_remove k hs) = raw_remove k hs.
Proof.
  unfold raw_remove.
  induction hs as [| [k0 v0] hs IH]; [reflexivity |].
  cbn [filter fst]. destruct (String.eqb k k0) eqn:E; cbn [negb filter fst].
  - exact IH.
  - rewrite E. cbn [negb]. now rewrite IH.
Qed.

(** Assigning a header leaves the headers of other names as they were,
    each of them and their order. *)
Lemma raw_set_keeps_others (k v : string) (hs : Headers) :
  raw_remove k (raw_set k v hs) = raw_remove k hs.
Proof.
  induction hs as [| [k0 v0] hs IH].
  - unfold raw_remove. cbn [raw_set filter fst]. now rewrite String.eqb_refl.
  - cbn [raw_set]. destruct (String.eqb k k0) eqn:E.
    + unfold raw_remove at 1 3. cbn [filter fst].
      rewrite String.eqb_refl, E. cbn [negb]. apply raw_remove_twice.
    + unfold raw_remove at 1 2. cbn [filter fst]. rewrite E. cbn [negb].
      f_equal. exact IH.
Qed.

(** X5: the response the middleware returns names the request
    identifier exactly once, also when the handler's response came with
    [X-Request-ID] headers of its own, one or several: they are replaced.
    The headers of every other name are kept, repeated ones included, in
    their order, and the identifier is found under any spelling of the
    header name. *)
Theorem returned_response_names_the_id_once
    (env : Env) (request : Request) (call_next : Handler)
    (w w1 : World) (response : Response) :
  sink_accepts env ->
  call_next (set_state_request_id request (uuid4 env)) (tick w) = (Return response, w1) ->
  exists returned w2,
    log_requests env request call_next w = (Return returned, w2)
    /\ filter (fun kv => String.eqb "x-request-id" (fst kv)) (headers returned)
       = [("x-request-id", uuid4 env)]
    /\ raw_remove "x-request-id" (headers returned)
       = raw_remove "x-request-id" (headers response)
    /\ (forall name, lower name = "x-request-id" ->
          get_header name (headers returned) = Some (uuid4 env)).
Proof.
  intros Hsink Hnext.
  destruct (returned_response_comes_back env request call_next w response w1 Hsink Hnext)
    as (w2 & Hrun).
  eexists. exists w2. split; [exact Hrun |].
  cbn [set_header headers].
  change (lower "X-Request-ID") with "x-request-id".
  split; [| split].
  - generalize (headers response). intros hs.
    induction hs as [| [k0 v0] hs IH]; [reflexivity |].
    cbn [raw_set]. destruct (String.eqb "x-request-id" k0) eqn:E.
    + cbn [filter fst]. rewrite String.eqb_refl.
      now rewrite raw_remove_none_left.
    + cbn [filter fst]. now rewrite E.
  - apply raw_set_keeps_others.
  - intros name Hname. unfold get_header. rewrite Hname.
    apply raw_get_set_same.
Qed.

Lemma returned_response_names_the_id_once_witness :
  exists returned w2,
    log_requests Sample.env Sample.request Cases.answers_tagged Sample.w0
      = (Return returned, w2)
    /\ filter (fun kv => String.eqb "x-request-id" (fst kv)) (headers returned)
       = [("x-request-id", uuid4 Sample.env)]
    /\ raw_remove "x-request-id" (headers returned)
       = raw_remove "x-request-id" (headers Cases.tagged)
    /\ (forall name, lower name = "x-request-id" ->
          get_header name (headers returned) = Some (uuid4 Sample.env)).
Proof.
  apply (returned_response_names_the_id_once Sample.env Sample.request
           Cases.answers_tagged Sample.w0 (tick Sample.w0) Cases.tagged).
  - intro r. reflexivity.
  - reflexivity.
Defined.

(** A JSON response whose status allows a body announces the length of
    its body and its media type. *)
Lemma JSONResponse_framing (status : Z) (content : pyval) :
  (200 <= status)%Z -> status <> 204%Z -> status <> 304%Z ->
  get_header "Content-Length" (headers (JSONResponse status content))
    = Some (str_N (N.of_nat (String.length (body (JSONResponse status content)))))
  /\ get_header "Content-Type" (headers (JSONResponse status content))
    = Some "application/json".
Proof.
  intros H200 H204 H304. unfold JSONResponse. cbn [headers body].
  assert ((status <? 200)%Z = false) as -> by (apply Z.ltb_ge; lia).
  assert ((status =? 204)%Z = false) as -> by (apply Z.eqb_neq; lia).
  assert ((status =? 304)%Z = false) as -> by (apply Z.eqb_neq; lia).
  split; reflexivity.
Qed.

(** X6: the middleware keeps a JSON response well framed.  When the
    handler raises, or returns a JSON response with a status that allows
    a body, the response the caller gets has a [Content-Length] equal to
    the length of its body and the JSON media type. *)
Theorem json_responses_stay_framed
    (env : Env) (request : Request) (call_next : Handler)
    (w w1 : World) (outcome : result Response) :
  sink_accepts env ->
  call_next (set_state_request_id request (uuid4 env)) (tick w) = (outcome, w1) ->
  (forall response, outcome = Return response ->
     exists status content,
       response = JSONResponse status content
       /\ (200 <= status)%Z /\ status <> 204%Z /\ status <> 304%Z) ->
  exists returned w2,
    log_requests env request call_next w = (Return returned, w2)
    /\ get_header "Content-Length" (headers returned)
       = Some (str_N (N.of_nat (String.length (body returned))))
    /\ get_header "Content-Type" (headers returned) = Some "application/json".
Proof.
  intros Hsink Hnext Hjson.
  destruct outcome as [response | e].
  - destruct (Hjson response eq_refl) as (status & content & -> & H200 & H204 & H304).
    destruct (returned_response_comes_back env request call_next w _ _ Hsink Hnext)
      as (w2 & Hrun).
    eexists. exists w2. split; [exact Hrun |].
    destruct (JSONResponse_framing status content H200 H204 H304) as [Hlen Htype].
    split.
    + rewrite get_set_header_other by discriminate. exact Hlen.
    + rewrite get_set_header_other by discriminate. exact Htype.
  - pose proof (log_requests_raised env request call_next w e w1 Hnext) as Hrun.
    cbv zeta in Hrun. rewrite Hsink in Hrun.
    eexists. eexists. split; [exact Hrun |].
    apply JSONResponse_framing; lia.
Qed.

Lemma json_responses_stay_framed_witness :
  exists returned w2,
    log_requests Sample.env Sample.request Cases.accepted Sample.w0
      = (Return returned, w2)
    /\ get_header "Content-Length" (headers returned)
       = Some (str_N (N.of_nat (String.length (body returned))))
    /\ get_header "Content-Type" (headers returned) = Some "application/json".
Proof.
  apply (json_responses_stay_framed Sample.env Sample.request Cases.accepted
           Sample.w0 (tick Sample.w0)
           (Return (JSONResponse 202 (VDict [("queued", VBool true)])))).
  - intro r. reflexivity.
  - reflexivity.
  - intros response [= <-]. exists 202%Z, (VDict [("queued", VBool true)]).
    repeat split; lia.
Defined.

(** ** The schema augmentation and its getter, once more *)

(** A schema the augmentation accepts has the expected shape. *)
Lemma augment_schema_needs_shape (schema out : dict) :
  augment_schema schema = Some out -> schema_shape schema.
Proof.
  intros Hout v Hv.
  unfold augment_schema, dict_contains in Hout. rewrite Hv in Hout.
  cbn [negb] in Hout. rewrite Hv in Hout.
  destruct v as [| | | | | components]; try discriminate Hout.
  exists components. split; [reflexivity |].
  intros v' Hv'. rewrite Hv' in Hout. cbn [negb] in Hout. rewrite Hv' in Hout.
  destruct v' as [| | | | | schemes]; try discriminate Hout.
  now exists schemes.
Qed.

(** X7: the augmentation raises exactly when [components] is present
    and is not a dictionary, or [securitySchemes] is present in it and is
    not a dictionary; on every other schema it returns a result. *)
Theorem augment_schema_succeeds_iff_shape (schema : dict) :
  schema_shape schema <-> exists out, augment_schema schema = Some out.
Proof.
  split.
  - intros Hshape. eexists. apply (augment_schema_path schema Hshape).
  - intros (out & Hout). exact (augment_schema_needs_shape schema out Hout).
Qed.

(** X8: augmenting an augmented schema changes nothing: the second
    pass finds both containers and stores the same scheme where it
    already stands. *)
Theorem augment_schema_twice (schema out : dict) :
  augment_schema schema = Some out ->
  augment_schema out = Some out.
Proof.
  intros Hout.
  pose proof (augment_schema_needs_shape schema out Hout) as Hshape.
  rewrite (augment_schema_path schema Hshape) in Hout.
  injection Hout as <-.
  set (schemes := dict_set "bearerAuth" bearerAuth_scheme
                    (schemes_of (components_of schema))).
  set (components := dict_set "securitySchemes" (VDict schemes)
                       (components_of schema)).
  assert (Hc : components_of (dict_set "components" (VDict components) schema)
               = components)
    by (unfold components_of; now rewrite dict_get_set_same).
  assert (Hs : schemes_of components = schemes)
    by (unfold schemes_of, components; now rewrite dict_get_set_same).
  rewrite augment_schema_path.
  - rewrite Hc, Hs. subst components schemes.
    now rewrite !dict_set_set.
  - intros v Hv. rewrite dict_get_set_same in Hv. injection Hv as <-.
    exists components. split; [reflexivity |].
    intros v' Hv'. unfold components in Hv'.
    rewrite dict_get_set_same in Hv'. injection Hv' as <-.
    now exists schemes.
Qed.

Lemma augment_schema_twice_witness :
  augment_schema
    (dict_set "components"
       (VDict (dict_set "securitySchemes"
                 (VDict (dict_set "bearerAuth" bearerAuth_scheme Sample.keyed_schemes))
                 Sample.keyed_components))
       Sample.keyed_schema)
  = Some
      (dict_set "components"
         (VDict (dict_set "securitySchemes"
                   (VDict (dict_set "bearerAuth" bearerAuth_scheme Sample.keyed_schemes))
                   Sample.keyed_components))
         Sample.keyed_schema).
Proof.
  apply (augment_schema_twice Sample.keyed_schema). reflexivity.
Defined.

(** X9: a failure of the augmentation is not cached.  When the base
    schema makes the augmentation raise, the getter raises, the cache
    stays as it was, and every further call asks the framework for the
    base schema again: after [n] calls it has been asked [n] times. *)
Theorem custom_openapi_retries_after_failure
    (Routes : Type) (get_openapi : string -> string -> string -> Routes -> dict)
    (settings : Settings) (app : App Routes) (n : nat) :
  truthy (openapi_schema app) = false ->
  augment_schema (get_openapi (API_TITLE settings) (API_VERSION settings)
                              api_description (routes app)) = None ->
  let after :=
    Nat.iter n (fun a => snd (custom_openapi get_openapi settings a)) app in
  after = mkApp (openapi_schema app) (routes app) (n + introspections app)
  /\ fst (custom_openapi get_openapi settings after) = None.
Proof.
  intros Hempty Hfail. cbv zeta.
  assert (Hstep : forall k,
             custom_openapi get_openapi settings
               (mkApp (openapi_schema app) (routes app) k)
             = (None, mkApp (openapi_schema app) (routes app) (S k))).
  { intros k. unfold custom_openapi. cbn [openapi_schema routes introspections].
    now rewrite Hempty, Hfail. }
  assert (Hiter :
            Nat.iter n (fun a => snd (custom_openapi get_openapi settings a)) app
            = mkApp (openapi_schema app) (routes app) (n + introspections app)).
  { induction n as [| n IH].
    - now destruct app.
    - rewrite Nat.iter_succ, IH, Hstep. reflexivity. }
  split; [exact Hiter |].
  rewrite Hiter, Hstep. reflexivity.
Qed.

Lemma custom_openapi_retries_after_failure_witness :
  let after :=
    Nat.iter 3
      (fun a => snd (custom_openapi Cases.introspect_bad Sample.settings a))
      (mkApp None tt 0) in
  after = mkApp None tt 3
  /\ fst (custom_openapi Cases.introspect_bad Sample.settings after) = None.
Proof.
  apply (custom_openapi_retries_after_failure unit Cases.introspect_bad
           Sample.settings (mkApp None tt 0) 3); reflexivity.
Defined.

(** X16: the getter serves whatever non-empty schema it finds in the
    cache, augmented or not: it returns it as it is, leaves the
    application untouched and does not ask the framework, on every
    call. *)
Theorem custom_openapi_serves_the_cache
    (Routes : Type) (get_openapi : string -> string -> string -> Routes -> dict)
    (settings : Settings) (app : App Routes) (schema : dict) (n : nat) :
  openapi_schema app = Some schema ->
  schema <> [] ->
  custom_openapi get_openapi settings
    (Nat.iter n (fun a => snd (custom_openapi get_openapi settings a)) app)
  = (Some schema, app).
Proof.
  intros Hcache Hne.
  rewrite (custom_openapi_stays Routes get_openapi settings app schema n Hcache Hne).
  now apply custom_openapi_cached.
Qed.

Lemma custom_openapi_serves_the_cache_witness :
  custom_openapi Cases.introspect_bad Sample.settings
    (Nat.iter 2
       (fun a => snd (custom_openapi Cases.introspect_bad Sample.settings a))
       (mkApp (Some Sample.bare_schema) tt 0))
  = (Some Sample.bare_schema, mkApp (Some Sample.bare_schema) tt 0).
Proof.
  apply (custom_openapi_serves_the_cache unit Cases.introspect_bad Sample.settings
           (mkApp (Some Sample.bare_schema) tt 0) Sample.bare_schema 2).
  - reflexivity.
  - discriminate.
Defined.

(** ** Start and stop *)

(** X10: when the database initialisation and the guarded block both
    end normally, [lifespan] logs the start line before the
    initialisation runs, the line about the database after it, and the
    shutdown line after the block, and gives back what the block
    returned. *)
Theorem lifespan_runs_in_order
    (A : Type) (env : Env) (init_db : M unit) (serving : M A)
    (w w1 w2 : World) (served : A) :
  sink_accepts env ->
  init_db (emit (mkLog INFO "Starting application...") w) = (Return tt, w1) ->
  serving (emit (mkLog INFO "Database initialized") w1) = (Return served, w2) ->
  lifespan env init_db serving w =
    (Return served, emit (mkLog INFO "Shutting down application...") w2).
Proof.
  intros Hsink Hinit Hserve.
  unfold lifespan, bind, logger_info, logger_log, ret.
  rewrite !Hsink, Hinit, Hserve. reflexivity.
Qed.

Lemma lifespan_runs_in_order_witness :
  lifespan Sample.env Cases.init_ok Cases.serve_ok Sample.w0 =
    (Return 7,
     emit (mkLog INFO "Shutting down application...")
       (emit (mkLog INFO "Database initialized")
          (emit (mkLog INFO "Starting application...") Sample.w0))).
Proof.
  apply (lifespan_runs_in_order nat Sample.env Cases.init_ok Cases.serve_ok
           Sample.w0
           (emit (mkLog INFO "Starting application...") Sample.w0)
           (emit (mkLog INFO "Database initialized")
              (emit (mkLog INFO "Starting application...") Sample.w0))
           7).
  - intro r. reflexivity.
  - reflexivity.
  - reflexivity.
Defined.

(** X11: when the database initialisation raises, [lifespan] raises
    the same exception at once: the line about the database is not
    logged, the guarded block is not run, whatever it is, and no shutdown
    line is logged. *)
Theorem lifespan_stops_when_init_db_fails
    (A : Type) (env : Env) (init_db : M unit) (serving : M A)
    (w w1 : World) (e : exn) :
  sink_accepts env ->
  init_db (emit (mkLog INFO "Starting application...") w) = (Raise e, w1) ->
  lifespan env init_db serving w = (Raise e, w1).
Proof.
  intros Hsink Hinit.
  unfold lifespan, bind, logger_info, logger_log.
  rewrite Hsink, Hinit. reflexivity.
Qed.

Lemma lifespan_stops_when_init_db_fails_witness :
  lifespan Sample.env Cases.init_fails Cases.serve_ok Sample.w0 =
    (Raise (Exception "connection refused"),
     emit (mkLog INFO "Starting application...") Sample.w0).
Proof.
  apply (lifespan_stops_when_init_db_fails nat Sample.env Cases.init_fails
           Cases.serve_ok Sample.w0).
  - intro r. reflexivity.
  - reflexivity.
Defined.

(** X12: when the guarded block raises, the exception leaves
    [lifespan] through the [yield] and the shutdown line is not logged:
    the log ends as the block left it. *)
Theorem lifespan_skips_shutdown_line_on_failure
    (A : Type) (env : Env) (init_db : M unit) (serving : M A)
    (w w1 w2 : World) (e : exn) :
  sink_accepts env ->
  init_db (emit (mkLog INFO "Starting application...") w) = (Return tt, w1) ->
  serving (emit (mkLog INFO "Database initialized") w1) = (Raise e, w2) ->
  lifespan env init_db serving w = (Raise e, w2).
Proof.
  intros Hsink Hinit Hserve.
  unfold lifespan, bind, logger_info, logger_log.
  rewrite !Hsink, Hinit, Hserve. reflexivity.
Qed.

Lemma lifespan_skips_shutdown_line_on_failure_witness :
  lifespan Sample.env Cases.init_ok Cases.serve_fails Sample.w0 =
    (Raise (Exception "worker died"),
     emit (mkLog INFO "Database initialized")
       (emit (mkLog INFO "Starting application...") Sample.w0)).
Proof.
  apply (lifespan_skips_shutdown_line_on_failure nat Sample.env Cases.init_ok
           Cases.serve_fails Sample.w0
           (emit (mkLog INFO "Starting application...") Sample.w0)).
  - intro r. reflexivity.
  - reflexivity.
  - reflexivity.
Defined.

(** ** Timestamps and durations as text *)

Lemma length_append (a b : string) :
  String.length (a ++ b) = String.length a + String.length b.
Proof. induction a as [| x a IH]; simpl; [reflexivity | now rewrite IH]. Qed.

Lemma length_fmt_0wd (w : nat) (n : N) :
  (n < 10 ^ N.of_nat w)%N -> String.length (fmt_0wd w n) = w.
Proof.
  revert n. induction w as [| w IH]; intros n Hn.
  - change (10 ^ N.of_nat 0)%N with 1%N in Hn.
    assert (n = 0%N) as -> by lia. reflexivity.
  - rewrite Nat2N.inj_succ, N.pow_succ_r' in Hn.
    cbn [fmt_0wd]. rewrite length_append, IH
      by (apply N.Div0.div_lt_upper_bound; lia).
    simpl. lia.
Qed.

(** X13: the timestamp of a response body has one of two layouts.  A
    clock reading with no microseconds is printed in 19 characters, with
    no fraction; any other one in 26 characters, with a point and six
    digits. *)
Theorem isoformat_length (t : datetime) :
  valid_datetime t ->
  String.length (isoformat t) =
    if (microsecond t =? 0)%N then 19 else 26.
Proof.
  intros (Hy & Hmo & Hd & Hh & Hmi & Hs & Hus).
  unfold isoformat.
  repeat rewrite length_append.
  rewrite !length_fmt_0wd by (simpl; lia).
  destruct (microsecond t =? 0)%N; [reflexivity |].
  rewrite length_append, length_fmt_0wd by (simpl; lia). reflexivity.
Qed.

Lemma isoformat_length_witness :
  String.length (isoformat Cases.midnight) = 19
  /\ String.length (isoformat Cases.afternoon) = 26.
Proof.
  split.
  - apply (isoformat_length Cases.midnight). unfold valid_datetime. simpl. lia.
  - apply (isoformat_length Cases.afternoon). unfold valid_datetime. simpl. lia.
Defined.



(** ** What a client reads in a body *)

Lemma json_unescape_char (c : ascii) (rest : string) :
  json_unescape (json_escape_char c ++ rest) =
  cons_opt (Some c) (json_unescape rest).
Proof.
  destruct c as [[] [] [] [] [] [] [] []]; reflexivity.
Qed.

(** Escaping loses nothing and lets nothing out: whatever characters a
    string holds, quotes, backslashes and control characters included,
    reading the escaped text back gives the string itself. *)
Lemma json_escape_round_trip (s : string) :
  json_unescape (json_escape s) = Some s.
Proof.
  induction s as [| c s IH]; [reflexivity |].
  cbn [json_escape]. rewrite json_unescape_char, IH. reflexivity.
Qed.

(** X15: the body of the 404 response is a JSON object of three quoted
    fields in the order [detail], [path], [timestamp], and its [path]
    field reads back as the requested path, character for character,
    whatever the path holds: a quote, a backslash or a control character
    in the path cannot end the field or add another one. *)
Theorem not_found_body_echoes_the_path (request : Request) (now : datetime) :
  body (JSONResponse 404 (not_found_content request now)) =
    "{" ++ (json_string "detail" ++ ":" ++ json_string "Endpoint not found" ++ ","
            ++ json_string "path" ++ ":"
            ++ String dquote (json_escape (url_path request) ++ chr dquote) ++ ","
            ++ json_string "timestamp" ++ ":" ++ json_string (isoformat now))
        ++ "}"
  /\ json_unescape (json_escape (url_path request)) = Some (url_path request).
Proof.
  split; [reflexivity | apply json_escape_round_trip].
Qed.
